(** * The websocket client bootstrapper ([src/client/src/index.ts])

    A shallow embedding of the browser script and the properties of its
    endpoint computation, its start-up sequence and its two event handlers.

    The script is nineteen lines: it derives the socket address from
    [document.documentURI], constructs one [WebSocket], stores it in the
    module-level variable [ws] and installs an [onopen] and an [onmessage]
    handler that write to the console. *)

From Stdlib Require Import Strings.String Strings.Ascii Lists.List.
From Stdlib Require Import Arith.PeanoNat ZArith.ZArith Bool.Bool micromega.Lia.
From Stdlib Require Import Numbers.DecimalString.
Import ListNotations.

Local Open Scope list_scope.
Local Open Scope string_scope.

(** ** Strings

    Script strings are modelled by [string]; every address and every
    message of the script is a sequence of code units below 256. *)

Module Str.

(** [s.slice(n)]: the string without its first [n] code units. *)
Fixpoint drop (n : nat) (s : string) : string :=
  match n, s with
  | O, _ => s
  | S _, EmptyString => EmptyString
  | S n', String _ s' => drop n' s'
  end.

(** [s.slice(0, n)]: the first [n] code units of the string. *)
Fixpoint take (n : nat) (s : string) : string :=
  match n, s with
  | O, _ => EmptyString
  | S _, EmptyString => EmptyString
  | S n', String c s' => String c (take n' s')
  end.

(** [s.startsWith(p)]. *)
Fixpoint startsWith (p s : string) : bool :=
  match p, s with
  | EmptyString, _ => true
  | String _ _, EmptyString => false
  | String a p', String b s' => Ascii.eqb a b && startsWith p' s'
  end.

(** [s.includes(p)]: [p] occurs at some index of [s]. *)
Fixpoint includes (p s : string) : bool :=
  startsWith p s ||
  match s with
  | EmptyString => false
  | String _ s' => includes p s'
  end.

(** [s.indexOf(p)], with [None] for the script's [-1]. *)
Fixpoint indexOf (p s : string) : option nat :=
  if startsWith p s then Some O
  else match s with
       | EmptyString => None
       | String _ s' => option_map S (indexOf p s')
       end.

End Str.

(** ** The pattern [/https?/] and [String.prototype.replace]

    The only pattern of the script is made of literal characters and one
    optional character, so patterns are lists of such items.  Matching is
    the backtracking matcher of the language: an optional item first tries
    to consume its character and falls back to consuming nothing. *)

Inductive RegexItem : Type :=
| Chr (c : ascii)        (* [c]  *)
| OptChr (c : ascii).    (* [c?] *)

Definition Regex : Type := list RegexItem.

(** [match_here r s] matches [r] at the start of [s] and returns what
    follows the match. *)
Fixpoint match_here (r : Regex) (s : string) : option string :=
  match r with
  | [] => Some s
  | Chr c :: r' =>
      match s with
      | String d s' => if Ascii.eqb c d then match_here r' s' else None
      | EmptyString => None
      end
  | OptChr c :: r' =>
      match s with
      | String d s' =>
          if Ascii.eqb c d
          then match match_here r' s' with
               | Some t => Some t
               | None => match_here r' s
               end
          else match_here r' s
      | EmptyString => match_here r' s
      end
  end.

(** [s.replace(r, by)] for a pattern without the [g] flag and a replacement
    text without [$]: the match is tried at index 0, 1, ... up to the end
    of the string, the first one found is replaced, and a string without a
    match is returned as it is. *)
Fixpoint replace (r : Regex) (by_ : string) (s : string) : string :=
  match match_here r s with
  | Some rest => by_ ++ rest
  | None =>
      match s with
      | EmptyString => EmptyString
      | String c s' => String c (replace r by_ s')
      end
  end.

(** The pattern literal [/https?/] of line 6. *)
Definition https_opt : Regex :=
  [Chr "h"; Chr "t"; Chr "t"; Chr "p"; OptChr "s"]%char.

(** The length of what [/https?/] matches at the start of a string that
    starts with [http]. *)
Definition matched (s : string) : nat :=
  if Str.startsWith "https" s then 5 else 4.

(** The address handed to the constructor on line 6:
    [`${document.documentURI.replace(/https?/, 'ws')}ws`]. *)
Definition endpoint (documentURI : string) : string :=
  replace https_opt "ws" documentURI ++ "ws".

(** The scheme substitution alone, [documentURI.replace(/https?/, 'ws')]. *)
Definition scheme_subst (documentURI : string) : string :=
  replace https_opt "ws" documentURI.

(** ** Script values

    The payload of a message event has type [any].  The values modelled are
    the ones JSON can carry plus [undefined]; a number is an integer (one
    that a script number holds exactly and prints in plain digits), [NaN]
    or an infinity; fractions are not modelled.  An object is its list of
    own enumerable string-keyed properties in enumeration order, with
    distinct keys; [Blob] and [ArrayBuffer] payloads have no such property
    and behave as [JsObj []] in this script.  These are values of data.
    A big integer, a function, a symbol, an accessor and an object that
    contains itself are not data that a message carries, and they are not
    modelled. *)

Inductive JsNumber : Type :=
| Int (z : Z)
| NaN
| Infinity (negative : bool).

#[warnings="-register-all"] Inductive JsValue : Type :=
| JsUndefined
| JsNull
| JsBool (b : bool)
| JsNum (n : JsNumber)
| JsStr (s : string)
| JsArr (elems : list JsValue)
| JsObj (props : list (string * JsValue)).

(** Exceptions the script can raise. *)
Inductive Exn : Type :=
| TypeError
| SyntaxError.

(** The completion of an evaluation: a value, or an exception thrown. *)
Inductive Completion (A : Type) : Type :=
| Normal (a : A)
| Throw (e : Exn).

Arguments Normal {A} a.
Arguments Throw {A} e.

(** [ToBoolean], the truthiness test behind [!x] and [if (x)]. *)
Definition ToBoolean (v : JsValue) : bool :=
  match v with
  | JsUndefined | JsNull => false
  | JsBool b => b
  | JsNum (Int z) => negb (Z.eqb z 0)
  | JsNum NaN => false
  | JsNum (Infinity _) => true
  | JsStr s => negb (String.eqb s "")
  | JsArr _ | JsObj _ => true
  end.

(** Own-property lookup in an object. *)
Fixpoint lookup (key : string) (props : list (string * JsValue)) : option JsValue :=
  match props with
  | [] => None
  | (k, v) :: rest => if String.eqb k key then Some v else lookup key rest
  end.

(** The property read [v.key], for a [key] that no built-in prototype
    defines and that is neither an index nor [length] (as is
    [packet_type]): reading from [undefined] or [null] throws, a primitive
    or an array has no such property, an object answers with its own. *)
Definition GetV (v : JsValue) (key : string) : Completion JsValue :=
  match v with
  | JsUndefined | JsNull => Throw TypeError
  | JsObj props =>
      match lookup key props with
      | Some x => Normal x
      | None => Normal JsUndefined
      end
  | _ => Normal JsUndefined
  end.

(** ** [JSON.stringify] *)

Module JSON.

Definition hex_digit (n : nat) : ascii :=
  match n with
  | 10 => "a" | 11 => "b" | 12 => "c" | 13 => "d" | 14 => "e" | 15 => "f"
  | _ => ascii_of_nat (48 + n)
  end%char.

Definition quote : ascii := ascii_of_nat 34.
Definition backslash : ascii := ascii_of_nat 92.

(** The escape of one code unit inside a JSON string. *)
Definition escape (c : ascii) : string :=
  let n := nat_of_ascii c in
  match n with
  | 8 => String backslash "b"
  | 9 => String backslash "t"
  | 10 => String backslash "n"
  | 12 => String backslash "f"
  | 13 => String backslash "r"
  | 34 => String backslash (String quote "")
  | 92 => String backslash (String backslash "")
  | _ =>
      if Nat.ltb n 32
      then String backslash
             ("u00" ++ String (hex_digit (n / 16)) (String (hex_digit (n mod 16)) ""))
      else String c ""
  end.

Fixpoint escape_all (s : string) : string :=
  match s with
  | EmptyString => EmptyString
  | String c s' => escape c ++ escape_all s'
  end.

(** [QuoteJSONString]. *)
Definition quote_string (s : string) : string :=
  String quote (escape_all s ++ String quote "").

(** A number: the decimal digits of an integer, [null] for a number that
    is not finite. *)
Definition number (n : JsNumber) : string :=
  match n with
  | Int z => NilZero.string_of_int (Z.to_int z)
  | NaN | Infinity _ => "null"
  end.

(** [JSON.stringify(v)]: [None] stands for the result [undefined].  A
    property whose value serialises to [undefined] is left out of its
    object; such an element of an array is written [null]. *)
Fixpoint stringify (v : JsValue) : option string :=
  match v with
  | JsUndefined => None
  | JsNull => Some "null"
  | JsBool true => Some "true"
  | JsBool false => Some "false"
  | JsNum n => Some (number n)
  | JsStr s => Some (quote_string s)
  | JsArr elems =>
      Some ("[" ++ String.concat ","
                     (map (fun e => match stringify e with
                                    | Some t => t
                                    | None => "null"
                                    end) elems)
                ++ "]")
  | JsObj props =>
      Some ("{" ++ String.concat ","
                     (flat_map (fun p => match stringify (snd p) with
                                         | Some t => [quote_string (fst p) ++ ":" ++ t]
                                         | None => []
                                         end) props)
                ++ "}")
  end.

End JSON.

(** [`${x}`] for the result of [JSON.stringify]: [undefined] is spelled
    out. *)
Definition interpolate (x : option string) : string :=
  match x with
  | Some s => s
  | None => "undefined"
  end.

(** ** The world of the script

    What the script can change: the module-level variable [ws], the socket
    objects it has constructed, and the journal of what it did to the
    outside (constructor calls, assignments, console calls), oldest first. *)

(** A reference to a socket object: its position among the sockets
    constructed. *)
Definition SockRef : Type := nat.

(** The two arrow functions of the script, by the line they start on. *)
Inductive Handler : Type :=
| onopen_closure       (* line 8 *)
| onmessage_closure.   (* line 12 *)

Inductive ConsoleMethod : Type :=
| Log      (* [console.log]   *)
| Error.   (* [console.error] *)

Record WebSocket : Type := mkWebSocket {
  url : string;
  onopen : option Handler;
  onmessage : option Handler
}.

Inductive Effect : Type :=
| Construct (address : string)                 (* [new WebSocket(address)] *)
| AssignWs (r : SockRef)                       (* [ws = r] *)
| ConsoleCall (m : ConsoleMethod) (msg : string).

Record World : Type := mkWorld {
  ws : option SockRef;          (* [let ws;], [None] while undefined *)
  heap : list WebSocket;
  journal : list Effect
}.

(** The world in which the script starts, after [let ws;]. *)
Definition initial : World :=
  {| ws := None; heap := []; journal := [] |}.

Definition emit (x : Effect) (w : World) : World :=
  {| ws := ws w; heap := heap w; journal := (journal w ++ [x])%list |}.

(** ** Script computations: a state and exception monad over [World] *)

Definition Script (A : Type) : Type := World -> Completion A * World.

Definition ret {A : Type} (a : A) : Script A :=
  fun w => (Normal a, w).

Definition bind {A B : Type} (c : Script A) (k : A -> Script B) : Script B :=
  fun w =>
    match c w with
    | (Normal a, w') => k a w'
    | (Throw e, w') => (Throw e, w')
    end.

Declare Scope script_scope.
Delimit Scope script_scope with script.
Notation "x <- c ;; k" := (bind c (fun x => k))
  (at level 61, c at next level, right associativity) : script_scope.
Notation "c ;; k" := (bind c (fun _ => k))
  (at level 61, right associativity) : script_scope.
Local Open Scope script_scope.

(** An evaluation that does not touch the world. *)
Definition eval {A : Type} (c : Completion A) : Script A :=
  fun w => (c, w).

(** [if (b) stmt] without an [else]. *)
Definition when (b : bool) (stmt : Script unit) : Script unit :=
  if b then stmt else ret tt.

Definition console_log (msg : string) : Script unit :=
  fun w => (Normal tt, emit (ConsoleCall Log msg) w).

Definition console_error (msg : string) : Script unit :=
  fun w => (Normal tt, emit (ConsoleCall Error msg) w).

(** The two checks that the socket constructor makes on an absolute
    address before it opens anything: the scheme is one of [ws], [wss],
    [http] and [https], and there is no fragment (a [#] starts one, also
    an empty one).  The address is otherwise taken to be a well-formed
    address, as the one derived from a page address is. *)
Definition socket_scheme (address : string) : bool :=
  Str.startsWith "ws:" address || Str.startsWith "wss:" address ||
  Str.startsWith "http:" address || Str.startsWith "https:" address.

Definition accepted (address : string) : bool :=
  socket_scheme address && negb (Str.includes "#" address).

(** [new WebSocket(address)]: for an address that passes the checks a
    socket object without handlers comes into being and the connection to
    [address] is opened; for any other address the constructor throws a
    [SyntaxError] and nothing has happened. *)
Definition new_WebSocket (address : string) : Script SockRef :=
  fun w =>
    if accepted address
    then (Normal (length (heap w)),
          emit (Construct address)
               {| ws := ws w;
                  heap := (heap w ++ [mkWebSocket address None None])%list;
                  journal := journal w |})
    else (Throw SyntaxError, w).

(** [ws = r]. *)
Definition assign_ws (r : SockRef) : Script unit :=
  fun w =>
    (Normal tt,
     emit (AssignWs r) {| ws := Some r; heap := heap w; journal := journal w |}).

(** Reading [ws] as the object of a property assignment; [undefined] has
    no properties to set. *)
Definition read_ws : Script SockRef :=
  fun w =>
    match ws w with
    | Some r => (Normal r, w)
    | None => (Throw TypeError, w)
    end.

Fixpoint update {A : Type} (n : nat) (f : A -> A) (l : list A) : list A :=
  match l, n with
  | [], _ => []
  | x :: l', O => f x :: l'
  | x :: l', S n' => x :: update n' f l'
  end.

(** [r.onopen = h] and [r.onmessage = h]. *)
Definition set_onopen (r : SockRef) (h : Handler) : Script unit :=
  fun w =>
    (Normal tt,
     {| ws := ws w;
        heap := update r (fun s => mkWebSocket (url s) (Some h) (onmessage s)) (heap w);
        journal := journal w |}).

Definition set_onmessage (r : SockRef) (h : Handler) : Script unit :=
  fun w =>
    (Normal tt,
     {| ws := ws w;
        heap := update r (fun s => mkWebSocket (url s) (onopen s) (Some h)) (heap w);
        journal := journal w |}).

(** ** The script *)

(** Line 2. *)
Definition DEBUG : bool := true.

(** The event of a message: only its [data] is read. *)
Record MessageEvent : Type := mkMessageEvent {
  data : JsValue
}.

(** What the message event of the socket carries in [data]: the text of
    a text frame, the object of a binary frame (a [Blob] or an
    [ArrayBuffer], an object without own enumerable properties), or, for
    the payload that the handler looks into, a decoded object with its
    fields.  [null] and [undefined] are not among them. *)
Inductive Inbound : Type :=
| TextFrame (text : string)
| BinaryFrame
| Decoded (props : list (string * JsValue)).

Definition inbound_data (m : Inbound) : JsValue :=
  match m with
  | TextFrame text => JsStr text
  | BinaryFrame => JsObj []
  | Decoded props => JsObj props
  end.

(** The message event of an inbound message. *)
Definition message (m : Inbound) : MessageEvent :=
  mkMessageEvent (inbound_data m).

(** Lines 8 to 10, the body of the [onopen] arrow function (its event is
    not read). *)
Definition on_open : Script unit :=
  console_log "Websocket connection established!".

(** Lines 12 to 18, the body of the [onmessage] arrow function. *)
Definition on_message (e : MessageEvent) : Script unit :=
  packet_type <- eval (GetV (data e) "packet_type") ;;
  when (negb (ToBoolean packet_type))
       (console_error
          ("Invalid packet recieved: " ++ interpolate (JSON.stringify (data e)))) ;;
  when DEBUG
       (console_log
          ("Packet recieved: " ++ interpolate (JSON.stringify (data e)))).

(** Lines 5 to 19, the function that the script calls at once. *)
Definition main (documentURI : string) : Script unit :=
  sock <- new_WebSocket (endpoint documentURI) ;;
  assign_ws sock ;;
  r <- read_ws ;;
  set_onopen r onopen_closure ;;
  r' <- read_ws ;;
  set_onmessage r' onmessage_closure.

(** ** Events

    The host delivers an event to a socket by calling the handler stored in
    the socket's slot, if there is one.  An exception that leaves a handler
    is reported by the host and not by the script; the world keeps what the
    handler did before. *)

Inductive Event : Type :=
| Open
| Message (e : MessageEvent).

(** Calling a handler with an event.  An open event has no [data]
    property, so a message handler called with one would read
    [undefined]; the host never does that, since [deliver] takes the
    handler from the slot of the event. *)
Definition call (h : Handler) (ev : Event) : Script unit :=
  match h, ev with
  | onopen_closure, _ => on_open
  | onmessage_closure, Message e => on_message e
  | onmessage_closure, Open => on_message (mkMessageEvent JsUndefined)
  end.

Definition slot (ev : Event) (s : WebSocket) : option Handler :=
  match ev with
  | Open => onopen s
  | Message _ => onmessage s
  end.

Definition deliver (r : SockRef) (ev : Event) (w : World) : World :=
  match nth_error (heap w) r with
  | Some s =>
      match slot ev s with
      | Some h => snd (call h ev w)
      | None => w
      end
  | None => w
  end.

(** The world after the script has started on a page and the host has
    delivered the events [evs], each to the socket it names.  When
    start-up has thrown there is no socket, and no event finds one. *)
Definition run (documentURI : string) (evs : list (SockRef * Event)) : World :=
  fold_left (fun w re => deliver (fst re) (snd re) w) evs
            (snd (main documentURI initial)).

(** ** Observations *)

(** What a computation adds to the journal when run in [w]. *)
Definition output {A : Type} (c : Script A) (w : World) : list Effect :=
  skipn (length (journal w)) (journal (snd (c w))).

Definition outcome {A : Type} (c : Script A) (w : World) : Completion A :=
  fst (c w).

(** What the delivery of one event adds to the journal. *)
Definition delivered (r : SockRef) (ev : Event) (w : World) : list Effect :=
  skipn (length (journal w)) (journal (deliver r ev w)).

(** The addresses of the connections opened, in order. *)
Fixpoint connections (j : list Effect) : list string :=
  match j with
  | [] => []
  | Construct a :: j' => a :: connections j'
  | _ :: j' => connections j'
  end.

(** The number of assignments to [ws]. *)
Fixpoint ws_writes (j : list Effect) : nat :=
  match j with
  | [] => 0
  | AssignWs _ :: j' => S (ws_writes j')
  | _ :: j' => ws_writes j'
  end.

(** The messages written with one console method, in order. *)
Fixpoint console (m : ConsoleMethod) (j : list Effect) : list string :=
  match j with
  | [] => []
  | ConsoleCall Log msg :: j' =>
      match m with Log => msg :: console m j' | Error => console m j' end
  | ConsoleCall Error msg :: j' =>
      match m with Error => msg :: console m j' | Log => console m j' end
  | _ :: j' => console m j'
  end.

(** Several effects, one after the other. *)
Definition emits (l : list Effect) (w : World) : World :=
  fold_left (fun w' x => emit x w') l w.

(** [undefined] and [null], the two values without properties. *)
Definition nullish (v : JsValue) : bool :=
  match v with
  | JsUndefined | JsNull => true
  | _ => false
  end.

(** [key in v] for an object [v]: the payload has an own field [key]. *)
Definition has_field (key : string) (v : JsValue) : bool :=
  match v with
  | JsObj props =>
      match lookup key props with
      | Some _ => true
      | None => false
      end
  | _ => false
  end.

(** The effects that are console calls. *)
Definition is_console (x : Effect) : bool :=
  match x with
  | ConsoleCall _ _ => true
  | _ => false
  end.

(** The two console lines of the message handler for a payload. *)
Definition invalid_packet_line (d : JsValue) : string :=
  "Invalid packet recieved: " ++ interpolate (JSON.stringify d).

Definition packet_line (d : JsValue) : string :=
  "Packet recieved: " ++ interpolate (JSON.stringify d).

(** What the handler in the slot of an event writes when the script's
    two handlers are in their slots, run in the empty world. *)
Definition event_output (ev : Event) : list Effect :=
  match ev with
  | Open => output on_open initial
  | Message e => output (on_message e) initial
  end.

(** The same for an event addressed to a socket: a script that has
    started has one socket, number 0, and an event for any other reference
    finds none. *)
Definition addressed_output (re : SockRef * Event) : list Effect :=
  match fst re with
  | O => event_output (snd re)
  | S _ => []
  end.

(** * Properties *)

#[local] Arguments Ascii.eqb : simpl never.

(** ** The endpoint address *)

Example endpoint_localhost :
  endpoint "http://localhost:8080/" = "ws://localhost:8080/ws".
Proof. reflexivity. Qed.

Example endpoint_secure_page :
  endpoint "https://example.org/play" = "ws://example.org/playws".
Proof. reflexivity. Qed.

Example endpoint_file_page :
  endpoint "file:///srv/index.html" = "file:///srv/index.htmlws".
Proof. reflexivity. Qed.

Example endpoint_second_occurrence :
  endpoint "http://h/?next=https://k/" = "ws://h/?next=https://k/ws".
Proof. reflexivity. Qed.

Example endpoint_short_inputs :
  endpoint "" = "ws" /\ endpoint "htt" = "httws" /\ endpoint "xhttpsshttp" = "xwsshttpws".
Proof. repeat split. Qed.

Section StringFacts.

Lemma append_empty_r (s : string) : s ++ "" = s.
Proof. induction s as [|c s IH]; simpl; [reflexivity | now rewrite IH]. Qed.

Lemma append_assoc (a b c : string) : (a ++ b) ++ c = a ++ (b ++ c).
Proof. induction a as [|x a IH]; simpl; [reflexivity | now rewrite IH]. Qed.

Lemma startsWith_append (p t : string) : Str.startsWith p (p ++ t) = true.
Proof.
  induction p as [|c p IH]; simpl; [reflexivity|].
  now rewrite Ascii.eqb_refl, IH.
Qed.

Lemma startsWith_split (p s : string) :
  Str.startsWith p s = true -> s = p ++ Str.drop (String.length p) s.
Proof.
  revert s; induction p as [|c p IH]; intros [|d s]; simpl; try easy.
  intros H. apply andb_true_iff in H as [Hc Hp].
  apply Ascii.eqb_eq in Hc. subst d. f_equal. now apply IH.
Qed.

(** [includes] is the occurrence of the pattern somewhere in the string. *)
Lemma includes_spec (p s : string) :
  Str.includes p s = true <-> exists pre post, s = pre ++ p ++ post.
Proof.
  split.
  - induction s as [|c s IH]; simpl; rewrite orb_true_iff; intros [H|H].
    + exists "", (Str.drop (String.length p) ""). simpl. now apply startsWith_split.
    + discriminate.
    + exists "", (Str.drop (String.length p) (String c s)). simpl.
      now apply startsWith_split.
    + destruct (IH H) as (pre & post & ->). now exists (String c pre), post.
  - intros (pre & post & ->).
    induction pre as [|c pre IH]; simpl.
    + destruct (p ++ post) eqn:E; simpl; rewrite <- E, startsWith_append; reflexivity.
    + now rewrite IH, orb_true_r.
Qed.

(** [indexOf] answers with the first index at which the pattern starts. *)
Lemma indexOf_spec (p s : string) (i : nat) :
  Str.indexOf p s = Some i ->
  Str.startsWith p (Str.drop i s) = true /\
  forall k, k < i -> Str.startsWith p (Str.drop k s) = false.
Proof.
  revert i; induction s as [|c s IH]; intros i; simpl.
  - destruct (Str.startsWith p "") eqn:E; [|discriminate].
    intros [= <-]. split; [exact E | intros k Hk; lia].
  - destruct (Str.startsWith p (String c s)) eqn:E.
    + intros [= <-]. split; [exact E | intros k Hk; lia].
    + destruct (Str.indexOf p s) as [j|]; simpl; [|discriminate].
      intros [= <-]. destruct (IH j eq_refl) as [H1 H2]. split; [exact H1|].
      intros [|k] Hk; simpl; [exact E | apply H2; lia].
Qed.

Lemma indexOf_first (p s : string) (i : nat) :
  Str.startsWith p (Str.drop i s) = true ->
  (forall k, k < i -> Str.startsWith p (Str.drop k s) = false) ->
  Str.indexOf p s = Some i.
Proof.
  revert i; induction s as [|c s IH]; intros i H1 H2.
  - destruct i as [|i]; simpl in *; [now rewrite H1|].
    destruct (Str.startsWith p "") eqn:E; [|congruence].
    specialize (H2 0 (Nat.lt_0_succ i)). simpl in H2. congruence.
  - destruct i as [|i]; cbn [Str.indexOf Str.drop] in *; [now rewrite H1|].
    pose proof (H2 0 (Nat.lt_0_succ i)) as H0. cbn [Str.drop] in H0.
    rewrite H0, (IH i H1); [reflexivity|].
    intros k Hk. apply (H2 (S k)). lia.
Qed.

Lemma indexOf_includes (p s : string) :
  Str.indexOf p s = None <-> Str.includes p s = false.
Proof.
  induction s as [|c s IH]; simpl.
  - destruct (Str.startsWith p ""); simpl; split; congruence.
  - destruct (Str.startsWith p (String c s)); simpl; [split; congruence|].
    rewrite <- IH. destruct (Str.indexOf p s); simpl; split; congruence.
Qed.

End StringFacts.

(** ** The pattern [/https?/] *)

Section Pattern.

Lemma match_here_https (s : string) :
  Str.startsWith "http" s = true ->
  match_here https_opt s = Some (Str.drop (matched s) s).
Proof.
  unfold matched.
  destruct s as [|a [|b [|c [|d s]]]]; simpl; try discriminate;
    rewrite ?andb_false_r; try discriminate.
  destruct (Ascii.eqb "h" a); simpl; [|discriminate].
  destruct (Ascii.eqb "t" b); simpl; [|discriminate].
  destruct (Ascii.eqb "t" c); simpl; [|discriminate].
  destruct (Ascii.eqb "p" d); simpl; [|discriminate].
  intros _. destruct s as [|e s]; simpl; [reflexivity|].
  destruct (Ascii.eqb "s" e); reflexivity.
Qed.

Lemma match_here_no_http (s : string) :
  Str.startsWith "http" s = false -> match_here https_opt s = None.
Proof.
  destruct s as [|a [|b [|c [|d s]]]]; simpl; intros H;
    repeat match goal with
           | |- context [Ascii.eqb ?x ?y] => destruct (Ascii.eqb x y); simpl in *
           end; try reflexivity; discriminate.
Qed.

Lemma replace_no_http (s : string) :
  Str.includes "http" s = false -> replace https_opt "ws" s = s.
Proof.
  induction s as [|c s IH]; intros H.
  - reflexivity.
  - cbn [Str.includes] in H. apply orb_false_iff in H as [H1 H2].
    cbn [replace]. rewrite (match_here_no_http _ H1). now rewrite IH.
Qed.

Lemma replace_first_http (s : string) (i : nat) :
  Str.indexOf "http" s = Some i ->
  replace https_opt "ws" s =
  Str.take i s ++ "ws" ++ Str.drop (i + matched (Str.drop i s)) s.
Proof.
  revert i; induction s as [|c s IH]; intros i.
  - simpl. discriminate.
  - cbn [Str.indexOf].
    destruct (Str.startsWith "http" (String c s)) eqn:E.
    + intros [= <-]. cbn [replace]. rewrite (match_here_https _ E). reflexivity.
    + destruct (Str.indexOf "http" s) as [j|]; simpl option_map; [|discriminate].
      intros [= <-]. cbn [replace]. rewrite (match_here_no_http _ E).
      rewrite (IH j eq_refl). reflexivity.
Qed.

End Pattern.

(** C3: a page address that starts with [http://] gives the endpoint
    address [ws://] followed by the same host, port and path and by the
    literal [ws]. *)
Theorem endpoint_http (rest : string) :
  endpoint ("http://" ++ rest) = "ws://" ++ rest ++ "ws".
Proof. reflexivity. Qed.

(** C1, as the script has it: a page address that starts with [https://]
    gives the endpoint address [ws://] (the pattern takes the [s] of the
    scheme with it) followed by the unchanged rest and the literal [ws];
    it does not start with [wss://]. *)
Theorem endpoint_https (rest : string) :
  endpoint ("https://" ++ rest) = "ws://" ++ rest ++ "ws" /\
  Str.startsWith "wss://" (endpoint ("https://" ++ rest)) = false.
Proof. split; reflexivity. Qed.

(** C1 as claimed fails on a secure page: the endpoint of
    [https://example.org/] is [ws://example.org/ws]. *)
Lemma endpoint_https_not_wss :
  Str.startsWith "https://" "https://example.org/" = true /\
  endpoint "https://example.org/" = "ws://example.org/ws" /\
  Str.startsWith "wss://" (endpoint "https://example.org/") = false.
Proof. repeat split. Qed.

(** C10: an address in which [http] does not occur is left as it is by the
    scheme substitution, and its endpoint is the address followed by [ws];
    an address in which [http] occurs first at index [i] ([indexOf], see
    [indexOf_spec] and [indexOf_first]) keeps what is before [i] and what
    follows the match at [i] (the four characters and an [s] right after
    them), later occurrences included, and has [ws] in the place of the
    match only. *)
Theorem endpoint_first_http_only (addr : string) :
  ((~ exists pre post, addr = pre ++ "http" ++ post) ->
   scheme_subst addr = addr /\ endpoint addr = addr ++ "ws") /\
  (forall i, Str.indexOf "http" addr = Some i ->
   endpoint addr =
   Str.take i addr ++ "ws" ++ Str.drop (i + matched (Str.drop i addr)) addr ++ "ws").
Proof.
  unfold endpoint, scheme_subst. split.
  - intros H. rewrite replace_no_http; [now split|].
    destruct (Str.includes "http" addr) eqn:E; [|reflexivity].
    apply includes_spec in E. contradiction.
  - intros i H. rewrite (replace_first_http _ _ H).
    now rewrite !append_assoc.
Qed.

Lemma endpoint_first_http_only_witness :
  (scheme_subst "file:///srv/index.html" = "file:///srv/index.html" /\
   endpoint "file:///srv/index.html" = "file:///srv/index.html" ++ "ws") /\
  endpoint "a-https-http-https" = "a-" ++ "ws" ++ "-http-https" ++ "ws".
Proof.
  split.
  - apply (proj1 (endpoint_first_http_only "file:///srv/index.html")).
    intros H. apply includes_spec in H. discriminate H.
  - apply (proj2 (endpoint_first_http_only "a-https-http-https") 2).
    reflexivity.
Defined.

(** ** The journal *)

Section Journal.

Lemma skipn_length_app {A : Type} (j l : list A) :
  skipn (length j) (j ++ l)%list = l.
Proof. induction j as [|x j IH]; simpl; [reflexivity | exact IH]. Qed.

Lemma emits_fields (l : list Effect) (w : World) :
  ws (emits l w) = ws w /\
  heap (emits l w) = heap w /\
  journal (emits l w) = (journal w ++ l)%list.
Proof.
  revert w; induction l as [|x l IH]; intros w; simpl.
  - now rewrite app_nil_r.
  - destruct (IH (emit x w)) as (H1 & H2 & H3).
    unfold emits in *. rewrite H1, H2, H3. simpl.
    now rewrite <- app_assoc.
Qed.

Lemma emits_app (l1 l2 : list Effect) (w : World) :
  emits (l1 ++ l2)%list w = emits l2 (emits l1 w).
Proof. unfold emits. apply fold_left_app. Qed.

Lemma connections_app (j l : list Effect) :
  connections (j ++ l)%list = (connections j ++ connections l)%list.
Proof.
  induction j as [|x j IH]; simpl; [reflexivity|].
  destruct x; simpl; now rewrite IH.
Qed.

Lemma ws_writes_app (j l : list Effect) :
  ws_writes (j ++ l)%list = ws_writes j + ws_writes l.
Proof.
  induction j as [|x j IH]; simpl; [reflexivity|].
  destruct x; simpl; now rewrite IH.
Qed.

Lemma console_only_quiet (l : list Effect) :
  forallb is_console l = true -> connections l = [] /\ ws_writes l = 0.
Proof.
  induction l as [|x l IH]; simpl; [easy|].
  intros H. apply andb_true_iff in H as [Hx Hl].
  destruct x; simpl in *; try discriminate. now apply IH.
Qed.

End Journal.

(** ** The handlers *)

Section Handlers.

(** What the message handler does, case by case. *)
Lemma on_message_run (e : MessageEvent) (w : World) :
  on_message e w =
  match GetV (data e) "packet_type" with
  | Throw x => (Throw x, w)
  | Normal v =>
      (Normal tt,
       emits ((if ToBoolean v then []
               else [ConsoleCall Error (invalid_packet_line (data e))])
              ++ [ConsoleCall Log (packet_line (data e))])%list w)
  end.
Proof.
  unfold on_message, bind, eval, when, DEBUG, console_error, console_log, ret.
  destruct (GetV (data e) "packet_type") as [v|x]; [|reflexivity].
  destruct (ToBoolean v); reflexivity.
Qed.

Lemma GetV_not_nullish (d : JsValue) (key : string) :
  nullish d = false -> exists v, GetV d key = Normal v.
Proof.
  destruct d; simpl; try discriminate; intros _; eauto.
  destruct (lookup key props); eauto.
Qed.

Lemma GetV_nullish (d : JsValue) (key : string) :
  nullish d = true -> GetV d key = Throw TypeError.
Proof. destruct d; simpl; try discriminate; reflexivity. Qed.

Lemma output_emits (l : list Effect) (w : World) :
  skipn (length (journal w)) (journal (emits l w)) = l.
Proof.
  destruct (emits_fields l w) as (_ & _ & ->). apply skipn_length_app.
Qed.

(** What the message handler adds to the journal. *)
Lemma on_message_output (e : MessageEvent) (w : World) :
  output (on_message e) w =
  match GetV (data e) "packet_type" with
  | Throw _ => []
  | Normal v =>
      ((if ToBoolean v then []
        else [ConsoleCall Error (invalid_packet_line (data e))])
       ++ [ConsoleCall Log (packet_line (data e))])%list
  end.
Proof.
  unfold output. rewrite on_message_run.
  destruct (GetV (data e) "packet_type") as [v|x]; simpl snd.
  - apply output_emits.
  - apply (output_emits [] w).
Qed.

(** Every handler only writes to the console. *)
Lemma call_console_only (h : Handler) (ev : Event) (w : World) :
  exists l, snd (call h ev w) = emits l w /\ forallb is_console l = true.
Proof.
  assert (M : forall e, exists l,
               snd (on_message e w) = emits l w /\ forallb is_console l = true).
  { intros e. rewrite on_message_run.
    destruct (GetV (data e) "packet_type") as [v|x]; simpl snd.
    - eexists; split; [reflexivity|]. destruct (ToBoolean v); reflexivity.
    - exists []; split; reflexivity. }
  destruct h, ev; simpl call; try apply M.
  all: exists [ConsoleCall Log "Websocket connection established!"];
    split; reflexivity.
Qed.

Lemma deliver_console_only (r : SockRef) (ev : Event) (w : World) :
  exists l, deliver r ev w = emits l w /\ forallb is_console l = true.
Proof.
  unfold deliver.
  destruct (nth_error (heap w) r) as [s|]; [|exists []; split; reflexivity].
  destruct (slot ev s) as [h|]; [|exists []; split; reflexivity].
  apply call_console_only.
Qed.

(** The world right after start-up on an address that the constructor
    accepts. *)
Lemma main_run (documentURI : string) :
  accepted (endpoint documentURI) = true ->
  main documentURI initial =
  (Normal tt,
   {| ws := Some 0;
      heap := [mkWebSocket (endpoint documentURI)
                           (Some onopen_closure) (Some onmessage_closure)];
      journal := [Construct (endpoint documentURI); AssignWs 0] |}).
Proof.
  intros A. unfold main, bind, new_WebSocket. rewrite A. reflexivity.
Qed.

(** Start-up on an address that the constructor refuses. *)
Lemma main_refused (documentURI : string) (w : World) :
  accepted (endpoint documentURI) = false ->
  main documentURI w = (Throw SyntaxError, w).
Proof.
  intros A. unfold main, bind, new_WebSocket. rewrite A. reflexivity.
Qed.

Lemma deliver_without_sockets (r : SockRef) (ev : Event) (w : World) :
  heap w = [] -> deliver r ev w = w.
Proof. intros H. unfold deliver. rewrite H. now destruct r. Qed.

Lemma run_refused (documentURI : string) (evs : list (SockRef * Event)) :
  accepted (endpoint documentURI) = false ->
  run documentURI evs = initial.
Proof.
  intros A. unfold run. rewrite (main_refused _ _ A). simpl snd.
  induction evs as [|[r ev] evs IH]; simpl; [reflexivity|].
  now rewrite deliver_without_sockets.
Qed.

(** Events only add console calls to the world that start-up left. *)
Lemma run_console_only (documentURI : string) (evs : list (SockRef * Event)) :
  exists l, run documentURI evs = emits l (snd (main documentURI initial)) /\
            forallb is_console l = true.
Proof.
  unfold run. generalize (snd (main documentURI initial)) as w0.
  induction evs as [|[r ev] evs IH] using rev_ind; intros w0.
  - exists []; split; reflexivity.
  - rewrite fold_left_app. simpl.
    destruct (IH w0) as (l & -> & Hl).
    destruct (deliver_console_only r ev (emits l w0)) as (l' & -> & Hl').
    exists (l ++ l')%list. split; [now rewrite emits_app|].
    now rewrite forallb_app, Hl, Hl'.
Qed.

End Handlers.

(** ** Start-up and the lifetime of the page *)

Lemma run_fields (documentURI : string) (evs : list (SockRef * Event)) :
  accepted (endpoint documentURI) = true ->
  exists l,
    forallb is_console l = true /\
    ws (run documentURI evs) = Some 0 /\
    heap (run documentURI evs) =
      [mkWebSocket (endpoint documentURI)
                   (Some onopen_closure) (Some onmessage_closure)] /\
    journal (run documentURI evs) =
      ([Construct (endpoint documentURI); AssignWs 0] ++ l)%list.
Proof.
  intros A. destruct (run_console_only documentURI evs) as (l & -> & Hl).
  exists l. destruct (emits_fields l (snd (main documentURI initial))) as (-> & -> & ->).
  rewrite (main_run _ A). repeat split; assumption.
Qed.

Lemma includes_char_append (c : ascii) (a b : string) :
  Str.includes (String c "") (a ++ b) =
  Str.includes (String c "") a || Str.includes (String c "") b.
Proof.
  induction a as [|x a IH]; cbn [String.append Str.includes Str.startsWith].
  - reflexivity.
  - rewrite IH, !andb_true_r. now rewrite orb_assoc.
Qed.

(** The endpoint of a page address with the scheme [http] or [https] and
    without a fragment passes the checks of the constructor. *)
Lemma accepted_socket_address (rest : string) :
  Str.includes "#" rest = false -> accepted ("ws://" ++ rest ++ "ws") = true.
Proof.
  intros H. unfold accepted.
  change (socket_scheme ("ws://" ++ rest ++ "ws")) with true.
  change (Str.includes "#" ("ws://" ++ rest ++ "ws"))
    with (Str.includes "#" (rest ++ "ws")).
  rewrite includes_char_append, H. reflexivity.
Qed.

(** C5, as the script has it: when the constructor accepts the endpoint
    address, exactly one connection is opened, whatever events follow, and
    its target is the scheme-substituted page address with the literal
    [ws] put right after it, without a separator; this is so for every
    page address that starts with [http://] or [https://] and has no
    fragment, and the target is then [ws://], the rest of the address and
    [ws].  When the constructor refuses the endpoint address, start-up
    throws and no connection is opened. *)
Theorem one_connection (documentURI : string) (evs : list (SockRef * Event)) :
  (accepted (endpoint documentURI) = true ->
   connections (journal (run documentURI evs)) = [scheme_subst documentURI ++ "ws"]) /\
  (accepted (endpoint documentURI) = false ->
   outcome (main documentURI) initial = Throw SyntaxError /\
   connections (journal (run documentURI evs)) = []) /\
  (forall rest,
      documentURI = "http://" ++ rest \/ documentURI = "https://" ++ rest ->
      Str.includes "#" rest = false ->
      connections (journal (run documentURI evs)) = ["ws://" ++ rest ++ "ws"]).
Proof.
  assert (K : accepted (endpoint documentURI) = true ->
              connections (journal (run documentURI evs)) = [endpoint documentURI]).
  { intros A. destruct (run_fields documentURI evs A) as (l & Hl & _ & _ & ->).
    rewrite connections_app. destruct (console_only_quiet l Hl) as [-> _].
    reflexivity. }
  split; [exact K|]. split.
  - intros A. unfold outcome. rewrite (run_refused _ _ A), (main_refused _ _ A).
    split; reflexivity.
  - intros rest [-> | ->] F.
    + change (endpoint ("http://" ++ rest)) with ("ws://" ++ rest ++ "ws") in K.
      apply K. now apply accepted_socket_address.
    + change (endpoint ("https://" ++ rest)) with ("ws://" ++ rest ++ "ws") in K.
      apply K. now apply accepted_socket_address.
Qed.

Lemma one_connection_witness :
  connections (journal (run "http://localhost:8080/" [(0, Open)])) =
    [scheme_subst "http://localhost:8080/" ++ "ws"] /\
  (outcome (main "file:///srv/index.html") initial = Throw SyntaxError /\
   connections (journal (run "file:///srv/index.html" [(0, Open)])) = []) /\
  connections (journal (run "https://example.org/play?room=4" [])) =
    ["ws://" ++ "example.org/play?room=4" ++ "ws"].
Proof.
  split; [|split].
  - apply (proj1 (one_connection "http://localhost:8080/" [(0, Open)])).
    reflexivity.
  - apply (proj1 (proj2 (one_connection "file:///srv/index.html" [(0, Open)]))).
    reflexivity.
  - apply (proj2 (proj2 (one_connection "https://example.org/play?room=4" []))
             "example.org/play?room=4").
    + right. reflexivity.
    + reflexivity.
Defined.

(** C5 as claimed fails twice.  On the page [http://localhost:8080/lobby]
    the one connection goes to [ws://localhost:8080/lobbyws]: the [ws] is
    glued to the last segment of the path and is no segment of its own, so
    the target is not the substituted address followed by [/ws].  On the
    page [http://localhost:8080/#top] the constructor refuses the address
    and no connection is opened at all. *)
Lemma connection_target_glued_to_path :
  connections (journal (run "http://localhost:8080/lobby" [])) =
    ["ws://localhost:8080/lobbyws"] /\
  scheme_subst "http://localhost:8080/lobby" ++ "/ws" =
    "ws://localhost:8080/lobby/ws" /\
  connections (journal (run "http://localhost:8080/lobby" []))
    <> [scheme_subst "http://localhost:8080/lobby" ++ "/ws"] /\
  connections (journal (run "http://localhost:8080/#top" [])) = [].
Proof. repeat split. discriminate. Qed.

(** C8, as the script has it: [ws] is undefined before start-up and is
    assigned at most once.  When the constructor accepts the endpoint
    address, start-up assigns [ws] exactly once, and after any sequence of
    events [ws] still holds that socket; when the constructor throws, [ws]
    is never assigned and stays undefined.  In both cases the variable,
    the number of assignments and the socket objects after any sequence of
    events are those start-up left: no handler, on no event and in no
    world, assigns [ws] or changes a socket. *)
Theorem ws_assigned_once (documentURI : string) (evs : list (SockRef * Event)) :
  ws initial = None /\
  ws_writes (journal (run documentURI evs)) <= 1 /\
  ws (run documentURI evs) = ws (snd (main documentURI initial)) /\
  heap (run documentURI evs) = heap (snd (main documentURI initial)) /\
  ws_writes (journal (run documentURI evs)) =
    ws_writes (journal (snd (main documentURI initial))) /\
  (accepted (endpoint documentURI) = true ->
   ws_writes (journal (run documentURI evs)) = 1 /\
   ws (run documentURI evs) = Some 0) /\
  (accepted (endpoint documentURI) = false ->
   ws_writes (journal (run documentURI evs)) = 0 /\
   ws (run documentURI evs) = None) /\
  (forall (h : Handler) (ev : Event) (w : World),
      ws (snd (call h ev w)) = ws w /\
      heap (snd (call h ev w)) = heap w /\
      ws_writes (output (call h ev) w) = 0).
Proof.
  assert (Q : forall (h : Handler) (ev : Event) (w : World),
             ws (snd (call h ev w)) = ws w /\
             heap (snd (call h ev w)) = heap w /\
             ws_writes (output (call h ev) w) = 0).
  { intros h ev w. destruct (call_console_only h ev w) as (l' & E & Hl').
    unfold output. rewrite E.
    destruct (emits_fields l' w) as (H1 & H2 & H3).
    rewrite H1, H2, H3, skipn_length_app.
    now destruct (console_only_quiet l' Hl'). }
  destruct (accepted (endpoint documentURI)) eqn:A.
  - destruct (run_fields documentURI evs A) as (l & Hl & Hws & Hheap & Hj).
    rewrite Hws, Hheap, Hj, ws_writes_app, (main_run _ A).
    destruct (console_only_quiet l Hl) as [_ ->]. simpl.
    repeat split; try discriminate; try lia; apply Q.
  - rewrite (run_refused _ _ A), (main_refused _ _ A). simpl.
    repeat split; try discriminate; try lia; apply Q.
Qed.

Lemma ws_assigned_once_witness :
  (ws_writes (journal (run "http://localhost:8080/" [(0, Open)])) = 1 /\
   ws (run "http://localhost:8080/" [(0, Open)]) = Some 0) /\
  (ws_writes (journal (run "file:///srv/index.html" [(0, Open)])) = 0 /\
   ws (run "file:///srv/index.html" [(0, Open)]) = None).
Proof.
  split.
  - apply (ws_assigned_once "http://localhost:8080/" [(0, Open)]). reflexivity.
  - apply (ws_assigned_once "file:///srv/index.html" [(0, Open)]). reflexivity.
Defined.

(** C8 as claimed fails on the page [http://localhost:8080/#top]: the
    address derived from it has a fragment, the constructor throws before
    line 6 assigns, and [ws] is never written. *)
Lemma ws_unwritten_on_fragment_page :
  endpoint "http://localhost:8080/#top" = "ws://localhost:8080/#topws" /\
  outcome (main "http://localhost:8080/#top") initial = Throw SyntaxError /\
  ws_writes (journal (run "http://localhost:8080/#top" [(0, Open)])) = 0 /\
  ws (run "http://localhost:8080/#top" [(0, Open)]) = None.
Proof. repeat split. Qed.

(** ** The open handler *)

(** C6: the open handler, called with any event in any world, completes
    and adds exactly one entry to the journal, the [console.log] call with
    the fixed message; nothing goes to [console.error], no packet line is
    logged, and the same holds when the host delivers the open event to the
    socket at any point after start-up (there is a socket, and an open
    event, when the constructor has accepted the address, and none
    otherwise). *)
Theorem open_handler_logs_once (ev : Event) (w : World) :
  outcome (call onopen_closure ev) w = Normal tt /\
  output (call onopen_closure ev) w =
    [ConsoleCall Log "Websocket connection established!"] /\
  console Log (output (call onopen_closure ev) w) =
    ["Websocket connection established!"] /\
  console Error (output (call onopen_closure ev) w) = [] /\
  (forall documentURI evs,
      delivered 0 Open (run documentURI evs) =
        if accepted (endpoint documentURI)
        then [ConsoleCall Log "Websocket connection established!"]
        else []).
Proof.
  assert (E : output (call onopen_closure ev) w =
              [ConsoleCall Log "Websocket connection established!"]).
  { unfold output. destruct ev; simpl; apply skipn_length_app. }
  rewrite E. repeat split; try (destruct ev; reflexivity).
  intros documentURI evs. unfold delivered, deliver.
  destruct (accepted (endpoint documentURI)) eqn:A.
  - destruct (run_fields documentURI evs A) as (l & _ & _ & -> & _).
    simpl. apply skipn_length_app.
  - rewrite (run_refused _ _ A). reflexivity.
Qed.

(** ** The message handler *)

Example message_without_packet_type (w : World) :
  output (on_message (mkMessageEvent (JsObj []))) w =
  [ConsoleCall Error "Invalid packet recieved: {}";
   ConsoleCall Log "Packet recieved: {}"].
Proof. rewrite on_message_output. reflexivity. Qed.

Example message_with_packet_type (w : World) :
  let q := String JSON.quote "" in
  output (on_message (mkMessageEvent (JsObj [("packet_type", JsStr "X")]))) w =
  [ConsoleCall Log
     ("Packet recieved: {" ++ q ++ "packet_type" ++ q ++ ":" ++ q ++ "X" ++ q ++ "}")].
Proof. rewrite on_message_output. reflexivity. Qed.

Example message_that_is_text (w : World) :
  let q := String JSON.quote "" in
  output (on_message (mkMessageEvent (JsStr "hello"))) w =
  [ConsoleCall Error ("Invalid packet recieved: " ++ q ++ "hello" ++ q);
   ConsoleCall Log ("Packet recieved: " ++ q ++ "hello" ++ q)].
Proof. rewrite on_message_output. reflexivity. Qed.

(** The [console.error] lines of the handler, by the value read. *)
Lemma on_message_errors (e : MessageEvent) (w : World) :
  console Error (output (on_message e) w) =
  match GetV (data e) "packet_type" with
  | Normal v => if ToBoolean v then [] else [invalid_packet_line (data e)]
  | Throw _ => []
  end.
Proof.
  rewrite on_message_output.
  destruct (GetV (data e) "packet_type") as [v|x]; [|reflexivity].
  destruct (ToBoolean v); reflexivity.
Qed.

(** C2, as the script has it: the error line is written when and only when
    reading [packet_type] from the payload gives a falsy value (the field
    is absent, or present with [undefined], [null], [false], [0], [NaN] or
    the empty string); otherwise nothing goes to [console.error].  For the
    payload [{}] the line is written, for [{ packet_type: "X" }] it is
    not. *)
Theorem error_line_iff_falsy (e : MessageEvent) (w : World) :
  (console Error (output (on_message e) w) = [invalid_packet_line (data e)] <->
   exists v, GetV (data e) "packet_type" = Normal v /\ ToBoolean v = false) /\
  (console Error (output (on_message e) w) = [] <->
   ~ exists v, GetV (data e) "packet_type" = Normal v /\ ToBoolean v = false) /\
  console Error (output (on_message (mkMessageEvent (JsObj []))) w) =
    ["Invalid packet recieved: {}"] /\
  console Error
    (output (on_message (mkMessageEvent (JsObj [("packet_type", JsStr "X")]))) w) = [].
Proof.
  rewrite !on_message_errors. repeat split.
  - destruct (GetV (data e) "packet_type") as [v|x]; [|discriminate].
    destruct (ToBoolean v) eqn:T; [discriminate|]. intros _. now exists v.
  - intros (v & -> & ->). reflexivity.
  - intros H (v & Hv & T). rewrite Hv, T in H. discriminate.
  - intros H. destruct (GetV (data e) "packet_type") as [v|x]; [|reflexivity].
    destruct (ToBoolean v) eqn:T; [reflexivity|].
    exfalso. apply H. now exists v.
Qed.

Lemma error_line_iff_falsy_witness :
  console Error
    (output (on_message (mkMessageEvent (JsObj [("packet_type", JsNum (Int 0))])))
            initial) =
  [invalid_packet_line (JsObj [("packet_type", JsNum (Int 0))])] /\
  console Error
    (output (on_message (mkMessageEvent (JsObj [("packet_type", JsNum (Int 7))])))
            initial) = [].
Proof.
  split.
  - apply (proj1 (error_line_iff_falsy
                    (mkMessageEvent (JsObj [("packet_type", JsNum (Int 0))])) initial)).
    exists (JsNum (Int 0)). split; reflexivity.
  - apply (proj1 (proj2 (error_line_iff_falsy
                    (mkMessageEvent (JsObj [("packet_type", JsNum (Int 7))])) initial))).
    intros (v & Hv & T). simpl in Hv. injection Hv as <-. discriminate.
Defined.

(** C2 as claimed fails: the payload [{ packet_type: "" }] has the field,
    and the error line is written all the same. *)
Lemma error_line_with_field_present :
  has_field "packet_type" (JsObj [("packet_type", JsStr "")]) = true /\
  console Error
    (output (on_message (mkMessageEvent (JsObj [("packet_type", JsStr "")]))) initial) =
  [invalid_packet_line (JsObj [("packet_type", JsStr "")])].
Proof. split; reflexivity. Qed.

(** C9: when the payload is an object whose [packet_type] field is present
    with a falsy value, the error line is written; the empty string, [0],
    [false] and [null] are such values. *)
Theorem falsy_packet_type_reported
  (props : list (string * JsValue)) (v : JsValue) (w : World) :
  lookup "packet_type" props = Some v ->
  ToBoolean v = false ->
  has_field "packet_type" (JsObj props) = true /\
  console Error (output (on_message (mkMessageEvent (JsObj props))) w) =
    [invalid_packet_line (JsObj props)] /\
  In (ConsoleCall Error (invalid_packet_line (JsObj props)))
     (output (on_message (mkMessageEvent (JsObj props))) w).
Proof.
  intros L T. split; [simpl; now rewrite L|].
  rewrite on_message_errors, on_message_output. simpl. rewrite L, T.
  split; [reflexivity | now left].
Qed.

Lemma falsy_packet_type_reported_witness :
  (console Error
     (output (on_message (mkMessageEvent (JsObj [("packet_type", JsStr "")]))) initial)
   = [invalid_packet_line (JsObj [("packet_type", JsStr "")])]) /\
  (console Error
     (output (on_message (mkMessageEvent (JsObj [("packet_type", JsNum (Int 0))]))) initial)
   = [invalid_packet_line (JsObj [("packet_type", JsNum (Int 0))])]) /\
  (console Error
     (output (on_message (mkMessageEvent (JsObj [("packet_type", JsBool false)]))) initial)
   = [invalid_packet_line (JsObj [("packet_type", JsBool false)])]) /\
  (console Error
     (output (on_message (mkMessageEvent (JsObj [("packet_type", JsNull)]))) initial)
   = [invalid_packet_line (JsObj [("packet_type", JsNull)])]).
Proof.
  split; [|split; [|split]].
  - apply (falsy_packet_type_reported [("packet_type", JsStr "")] (JsStr "") initial);
      reflexivity.
  - apply (falsy_packet_type_reported
             [("packet_type", JsNum (Int 0))] (JsNum (Int 0)) initial); reflexivity.
  - apply (falsy_packet_type_reported
             [("packet_type", JsBool false)] (JsBool false) initial); reflexivity.
  - apply (falsy_packet_type_reported [("packet_type", JsNull)] JsNull initial);
      reflexivity.
Defined.

(** The data of an inbound message has properties to read. *)
Lemma inbound_not_nullish (m : Inbound) : nullish (inbound_data m) = false.
Proof. now destruct m. Qed.

(** C4: [DEBUG] is [true], and for every inbound message (a text frame, a
    binary frame or a decoded object) the handler writes the packet line,
    the fixed prefix followed by the serialised payload, with
    [console.log], exactly once, whatever the check of [packet_type] gave;
    for a payload without the field the journal gains the error line and
    then the packet line. *)
Theorem packet_line_always (m : Inbound) (w : World) :
  DEBUG = true /\
  In (ConsoleCall Log (packet_line (inbound_data m))) (output (on_message (message m)) w) /\
  console Log (output (on_message (message m)) w) = [packet_line (inbound_data m)] /\
  (has_field "packet_type" (inbound_data m) = false ->
   output (on_message (message m)) w =
   [ConsoleCall Error (invalid_packet_line (inbound_data m));
    ConsoleCall Log (packet_line (inbound_data m))]).
Proof.
  rewrite on_message_output. unfold message. cbn [data].
  split; [reflexivity|].
  destruct (GetV_not_nullish (inbound_data m) "packet_type"
              (inbound_not_nullish m)) as [v Hv].
  rewrite Hv. split; [|split].
  - destruct (ToBoolean v); simpl; auto.
  - destruct (ToBoolean v); reflexivity.
  - intros F. assert (v = JsUndefined) as ->; [|reflexivity].
    destruct (inbound_data m); simpl in *; try congruence.
    destruct (lookup "packet_type" props); congruence.
Qed.

Lemma packet_line_always_witness :
  output (on_message (message (Decoded [("seq", JsNum (Int 4))]))) initial =
  [ConsoleCall Error (invalid_packet_line (JsObj [("seq", JsNum (Int 4))]));
   ConsoleCall Log (packet_line (JsObj [("seq", JsNum (Int 4))]))].
Proof.
  apply (packet_line_always (Decoded [("seq", JsNum (Int 4))]) initial).
  reflexivity.
Defined.

(** C7: for every inbound message the handler completes without an
    exception, and all it does is one or two console calls, the world
    being otherwise as before; a payload whose [packet_type] is missing is
    reported by the error line, after which the handler still completes,
    and nothing is done a second time. *)
Theorem message_handler_completion (m : Inbound) (w : World) :
  outcome (on_message (message m)) w = Normal tt /\
  snd (on_message (message m) w) = emits (output (on_message (message m)) w) w /\
  forallb is_console (output (on_message (message m)) w) = true /\
  1 <= length (output (on_message (message m)) w) <= 2 /\
  ws (snd (on_message (message m) w)) = ws w /\
  heap (snd (on_message (message m) w)) = heap w /\
  (has_field "packet_type" (inbound_data m) = false ->
   console Error (output (on_message (message m)) w) =
     [invalid_packet_line (inbound_data m)]).
Proof.
  rewrite on_message_errors, on_message_output. unfold outcome.
  rewrite on_message_run. unfold message. cbn [data].
  destruct (GetV_not_nullish (inbound_data m) "packet_type"
              (inbound_not_nullish m)) as [v Hv].
  rewrite Hv. cbn [fst snd].
  match goal with
  | |- context [emits ?l w] =>
      destruct (emits_fields l w) as (H1 & H2 & _); rewrite H1, H2
  end.
  assert (F : has_field "packet_type" (inbound_data m) = false -> v = JsUndefined).
  { intros F. destruct (inbound_data m); simpl in *; try congruence.
    destruct (lookup "packet_type" props); congruence. }
  destruct (ToBoolean v) eqn:T; simpl; repeat split; try lia.
  intros E. rewrite (F E) in T. discriminate T.
Qed.

Lemma message_handler_completion_witness :
  console Error (output (on_message (message (TextFrame "ping"))) initial) =
  [invalid_packet_line (JsStr "ping")].
Proof.
  apply (message_handler_completion (TextFrame "ping") initial).
  reflexivity.
Defined.

(** * Further properties of the script *)

(** ** Start-up *)

(** X1: the function of lines 5 to 19, called when the script loads,
    either completes or throws at the constructor, by the address alone.
    When the constructor accepts the endpoint address, there is one
    socket for that address afterwards, [ws] refers to it, and both
    handlers are on it.  When the constructor refuses it (a page address
    with a fragment, a page that is not served over [http] or [https]),
    the function throws a [SyntaxError], the world is as before, and the
    console stays empty whatever events the host has to deliver. *)
Theorem start_up_completes_or_throws
  (documentURI : string) (evs : list (SockRef * Event)) :
  (accepted (endpoint documentURI) = true ->
   outcome (main documentURI) initial = Normal tt /\
   ws (snd (main documentURI initial)) = Some 0 /\
   heap (snd (main documentURI initial)) =
     [mkWebSocket (endpoint documentURI)
                  (Some onopen_closure) (Some onmessage_closure)]) /\
  (accepted (endpoint documentURI) = false ->
   main documentURI initial = (Throw SyntaxError, initial) /\
   journal (run documentURI evs) = []).
Proof.
  split; intros A.
  - unfold outcome. rewrite (main_run _ A). repeat split.
  - rewrite (run_refused _ _ A), (main_refused _ _ A). split; reflexivity.
Qed.

Lemma start_up_completes_or_throws_witness :
  (outcome (main "https://example.org/play") initial = Normal tt /\
   ws (snd (main "https://example.org/play" initial)) = Some 0 /\
   heap (snd (main "https://example.org/play" initial)) =
     [mkWebSocket (endpoint "https://example.org/play")
                  (Some onopen_closure) (Some onmessage_closure)]) /\
  (main "http://localhost:8080/#top" initial = (Throw SyntaxError, initial) /\
   journal (run "http://localhost:8080/#top"
                [(0, Open); (0, Message (message (TextFrame "ping")))]) = []).
Proof.
  split.
  - apply (proj1 (start_up_completes_or_throws "https://example.org/play" [])).
    reflexivity.
  - apply (proj2 (start_up_completes_or_throws
                    "http://localhost:8080/#top"
                    [(0, Open); (0, Message (message (TextFrame "ping")))])).
    reflexivity.
Defined.

(** ** The journal of a whole run *)

Lemma on_message_stateless (e : MessageEvent) (w : World) :
  on_message e w =
  (outcome (on_message e) initial, emits (output (on_message e) initial) w).
Proof.
  rewrite on_message_output. unfold outcome. rewrite !on_message_run.
  destruct (GetV (data e) "packet_type"); reflexivity.
Qed.

Lemma deliver_first_socket (a : string) (ev : Event) (w : World) :
  heap w = [mkWebSocket a (Some onopen_closure) (Some onmessage_closure)] ->
  deliver 0 ev w = emits (event_output ev) w.
Proof.
  intros H. unfold deliver. rewrite H. destruct ev as [|e]; simpl.
  - reflexivity.
  - now rewrite on_message_stateless.
Qed.

Lemma deliver_no_socket (s : WebSocket) (r : SockRef) (ev : Event) (w : World) :
  heap w = [s] -> deliver (S r) ev w = w.
Proof. intros H. unfold deliver. rewrite H. now destruct r. Qed.

Lemma run_emits (documentURI : string) (evs : list (SockRef * Event)) :
  accepted (endpoint documentURI) = true ->
  run documentURI evs =
  emits (flat_map addressed_output evs) (snd (main documentURI initial)).
Proof.
  intros A. induction evs as [|[r ev] evs IH] using rev_ind; [reflexivity|].
  rewrite flat_map_app, emits_app, <- IH. simpl. rewrite app_nil_r.
  unfold run at 1. rewrite fold_left_app. fold (run documentURI evs). simpl.
  destruct (run_fields documentURI evs A) as (l & _ & _ & Hh & _).
  destruct r as [|r]; unfold addressed_output; simpl.
  - apply (deliver_first_socket _ _ _ Hh).
  - apply (deliver_no_socket _ _ _ _ Hh).
Qed.

Lemma console_app (m : ConsoleMethod) (j l : list Effect) :
  console m (j ++ l)%list = (console m j ++ console m l)%list.
Proof.
  induction j as [|x j IH]; simpl; [reflexivity|].
  destruct x as [| |[] msg], m; simpl; now rewrite IH.
Qed.

Lemma run_journal_startup_then_events
  (documentURI : string) (evs : list (SockRef * Event)) :
  accepted (endpoint documentURI) = true ->
  journal (run documentURI evs) =
  ([Construct (endpoint documentURI); AssignWs 0]
     ++ flat_map addressed_output evs)%list.
Proof.
  intros A. rewrite (run_emits _ _ A).
  destruct (emits_fields (flat_map addressed_output evs)
              (snd (main documentURI initial))) as (_ & _ & ->).
  now rewrite (main_run _ A).
Qed.

(** X2: the handlers keep no state.  When the constructor has accepted
    the endpoint address, the journal of a run is the one constructor call
    and the one assignment of start-up followed by what each event adds,
    in the order of delivery; and what a message adds after any history
    (before the open event or after it, after valid or invalid messages)
    is what the handler writes for that payload in the empty world.  When
    the constructor has refused the address, the journal is empty. *)
Theorem run_journal (documentURI : string) (evs : list (SockRef * Event)) :
  (accepted (endpoint documentURI) = true ->
   journal (run documentURI evs) =
     ([Construct (endpoint documentURI); AssignWs 0]
        ++ flat_map addressed_output evs)%list /\
   (forall e, delivered 0 (Message e) (run documentURI evs) =
              output (on_message e) initial)) /\
  (accepted (endpoint documentURI) = false ->
   journal (run documentURI evs) = []).
Proof.
  split; intros A.
  - split.
    + apply (run_journal_startup_then_events _ _ A).
    + intros e. unfold delivered.
      destruct (run_fields documentURI evs A) as (l & _ & _ & Hh & _).
      rewrite (deliver_first_socket _ (Message e) _ Hh). apply output_emits.
  - now rewrite (run_refused _ _ A).
Qed.

Lemma run_journal_witness :
  journal (run "http://localhost:8080/"
               [(0, Message (message (TextFrame "early")));
                (0, Open);
                (0, Message (message (Decoded [("packet_type", JsStr "join")])))]) =
    ([Construct (endpoint "http://localhost:8080/"); AssignWs 0]
       ++ flat_map addressed_output
            [(0, Message (message (TextFrame "early")));
             (0, Open);
             (0, Message (message (Decoded [("packet_type", JsStr "join")])))])%list /\
  journal (run "file:///srv/index.html" [(0, Open)]) = [].
Proof.
  split.
  - apply (proj1 (run_journal "http://localhost:8080/"
                    [(0, Message (message (TextFrame "early")));
                     (0, Open);
                     (0, Message (message (Decoded [("packet_type", JsStr "join")])))])).
    reflexivity.
  - apply (proj2 (run_journal "file:///srv/index.html" [(0, Open)])).
    reflexivity.
Defined.

(** X3: over any run there are never more error lines than [console.log]
    lines on the console: every message that is reported as invalid is
    also logged as a packet. *)
Theorem errors_at_most_logs (documentURI : string) (evs : list (SockRef * Event)) :
  length (console Error (journal (run documentURI evs))) <=
  length (console Log (journal (run documentURI evs))).
Proof.
  destruct (accepted (endpoint documentURI)) eqn:A;
    [|rewrite (run_refused _ _ A); simpl; lia].
  rewrite (run_journal_startup_then_events _ _ A).
  rewrite !console_app. simpl.
  induction evs as [|[r ev] evs IH]; simpl; [lia|].
  rewrite !console_app, !length_app.
  enough (length (console Error (addressed_output (r, ev))) <=
          length (console Log (addressed_output (r, ev)))) by lia.
  destruct r as [|r]; [|simpl; lia].
  destruct ev as [|e]; unfold addressed_output; simpl; [lia|].
  rewrite on_message_output.
  destruct (GetV (data e) "packet_type") as [v|x]; [|simpl; lia].
  destruct (ToBoolean v); simpl; lia.
Qed.

(** X4: a message whose payload is [null] or [undefined] leaves no trace:
    the handler throws before it writes, the handlers stay in their slots,
    and the run goes on as if the message had not arrived. *)
Theorem nullish_message_leaves_no_trace
  (documentURI : string) (evs evs' : list (SockRef * Event))
  (r : SockRef) (e : MessageEvent) :
  nullish (data e) = true ->
  run documentURI (evs ++ (r, Message e) :: evs') = run documentURI (evs ++ evs').
Proof.
  intros N. destruct (accepted (endpoint documentURI)) eqn:A;
    [|now rewrite !(run_refused _ _ A)].
  rewrite !(run_emits _ _ A), !flat_map_app. simpl.
  assert (addressed_output (r, Message e) = []) as ->; [|reflexivity].
  destruct r as [|r]; [|reflexivity].
  unfold addressed_output; simpl.
  now rewrite on_message_output, (GetV_nullish _ _ N).
Qed.

Lemma nullish_message_leaves_no_trace_witness :
  run "http://localhost:8080/"
      ([(0, Open)] ++ (0, Message (mkMessageEvent JsNull))
                   :: [(0, Message (mkMessageEvent (JsObj [])))]) =
  run "http://localhost:8080/"
      ([(0, Open)] ++ [(0, Message (mkMessageEvent (JsObj [])))]).
Proof.
  apply (nullish_message_leaves_no_trace "http://localhost:8080/"
           [(0, Open)] [(0, Message (mkMessageEvent (JsObj [])))]
           0 (mkMessageEvent JsNull)).
  reflexivity.
Defined.

(** ** Which packets pass *)

(** X5: a payload that is not an object (a string, as the text frame of a
    socket is, a number, a boolean or an array) has no [packet_type]: the
    handler reports it as invalid and then logs it, whatever it holds
    (text that would parse as a valid packet, for one, is not parsed). *)
Theorem non_object_payload_reported (e : MessageEvent) (w : World) :
  nullish (data e) = false ->
  (forall props, data e <> JsObj props) ->
  output (on_message e) w =
  [ConsoleCall Error (invalid_packet_line (data e));
   ConsoleCall Log (packet_line (data e))].
Proof.
  intros N O. rewrite on_message_output.
  destruct (data e) as [| | b | n | s | elems | props];
    try discriminate; try reflexivity.
  now destruct (O props).
Qed.

Lemma non_object_payload_reported_witness :
  output (on_message (mkMessageEvent (JsStr "{ packet_type: 1 }"))) initial =
  [ConsoleCall Error (invalid_packet_line (JsStr "{ packet_type: 1 }"));
   ConsoleCall Log (packet_line (JsStr "{ packet_type: 1 }"))].
Proof.
  apply (non_object_payload_reported
           (mkMessageEvent (JsStr "{ packet_type: 1 }")) initial).
  - reflexivity.
  - intros props H. discriminate H.
Defined.

(** X6: the handler writes the packet line alone, without the error line,
    exactly for the payloads that are objects with a truthy [packet_type];
    for those it completes, and no other field of the object is looked
    at. *)
Theorem packet_passes_iff (e : MessageEvent) (w : World) :
  output (on_message e) w = [ConsoleCall Log (packet_line (data e))] <->
  exists props v,
    data e = JsObj props /\
    lookup "packet_type" props = Some v /\
    ToBoolean v = true.
Proof.
  rewrite on_message_output. split.
  - destruct (data e) as [| | b | n | s | elems | props]; simpl;
      try discriminate.
    destruct (lookup "packet_type" props) as [v|] eqn:L; simpl;
      [|discriminate].
    destruct (ToBoolean v) eqn:T; [|discriminate].
    intros _. now exists props, v.
  - intros (props & v & -> & L & T). simpl. now rewrite L, T.
Qed.

Lemma packet_passes_iff_witness :
  output (on_message
            (mkMessageEvent (JsObj [("seq", JsNum (Int 4));
                                    ("packet_type", JsStr "join")]))) initial =
  [ConsoleCall Log
     (packet_line (JsObj [("seq", JsNum (Int 4)); ("packet_type", JsStr "join")]))].
Proof.
  apply (proj2 (packet_passes_iff
                  (mkMessageEvent (JsObj [("seq", JsNum (Int 4));
                                          ("packet_type", JsStr "join")]))
                  initial)).
  exists [("seq", JsNum (Int 4)); ("packet_type", JsStr "join")], (JsStr "join").
  repeat split.
Defined.

(** ** Secure and plain pages *)

(** X8: the pattern takes one [s] after [http] and no more, so a page
    address that starts with [https] and the same address with [http]
    give one and the same endpoint, which starts with [ws] followed by
    what came after the scheme word, unless a further [s] follows. *)
Theorem endpoint_https_same_as_http (rest : string) :
  Str.startsWith "s" rest = false ->
  endpoint ("https" ++ rest) = endpoint ("http" ++ rest) /\
  endpoint ("http" ++ rest) = "ws" ++ rest ++ "ws".
Proof.
  intros H. destruct rest as [|c rest]; [split; reflexivity|].
  unfold endpoint. cbn in *. rewrite andb_true_r in H. rewrite H.
  split; reflexivity.
Qed.

Lemma endpoint_https_same_as_http_witness :
  endpoint ("https" ++ "://example.org:8443/lobby") =
    endpoint ("http" ++ "://example.org:8443/lobby") /\
  endpoint ("http" ++ "://example.org:8443/lobby") =
    "ws" ++ "://example.org:8443/lobby" ++ "ws".
Proof.
  apply (endpoint_https_same_as_http "://example.org:8443/lobby").
  reflexivity.
Defined.
